(** * Verification of lang-analyzer (analyzer.py, utils.py)

    Shallow embedding of the snapshot differ and prefix analyzer.
    Python [str] values are modelled as [String.string] (one [ascii] per
    code point), Python sets as duplicate-free lists whose order is the
    set's iteration order, and Python exceptions as an explicit result
    type [exc]. *)

From Stdlib Require Import String Ascii List Bool Arith Lia ZArith.
From Stdlib Require Import Permutation Sorted.
From Stdlib Require Import Numbers.DecimalString.
Import ListNotations.

Open Scope string_scope.
Open Scope list_scope.
Open Scope nat_scope.

(** ** Python exceptions *)

Inductive py_exc := IndexError | ValueError.

Inductive exc (A : Type) : Type :=
| Ok (a : A)
| Raise (e : py_exc).
Arguments Ok {A} a.
Arguments Raise {A} e.

Definition exc_bind {A B} (m : exc A) (f : A -> exc B) : exc B :=
  match m with
  | Ok a => f a
  | Raise e => Raise e
  end.

Notation "'let*' x ':=' m 'in' f" := (exc_bind m (fun x => f))
  (at level 200, x name, m at level 100, f at level 200).

(** [try: m except IndexError: handler] *)
Definition try_index_error {A} (m : exc A) (handler : exc A) : exc A :=
  match m with
  | Raise IndexError => handler
  | _ => m
  end.

(** [l[i]] on a Python list. *)
Definition py_getitem {A} (l : list A) (i : nat) : exc A :=
  match nth_error l i with
  | Some x => Ok x
  | None => Raise IndexError
  end.

(** [a, b = l] *)
Definition py_unpack2 {A} (l : list A) : exc (A * A) :=
  match l with
  | [a; b] => Ok (a, b)
  | _ => Raise ValueError
  end.

(** ** Python string methods *)

(** [s.split(c, 1)] *)
Fixpoint py_split1 (c : ascii) (s : string) : list string :=
  match s with
  | EmptyString => [EmptyString]
  | String d r =>
      if Ascii.eqb d c then [EmptyString; r]
      else match py_split1 c r with
           | x :: rest => String d x :: rest
           | [] => [String d EmptyString]
           end
  end.

(** [str.isspace] on a single character; a character stands for the code
    point U+0000 .. U+00FF of its number.  Python's whitespace in that range:
    \t \n \x0b \x0c \r, \x1c .. \x1f, the space, U+0085 (NEL) and
    U+00A0 (no-break space). *)
Definition py_isspace (c : ascii) : bool :=
  let n := nat_of_ascii c in
  ((9 <=? n)%nat && (n <=? 13)%nat) || ((28 <=? n)%nat && (n <=? 32)%nat)
  || (n =? 133)%nat || (n =? 160)%nat.

Fixpoint py_lstrip (s : string) : string :=
  match s with
  | EmptyString => EmptyString
  | String c r => if py_isspace c then py_lstrip r else s
  end.

Fixpoint py_rstrip (s : string) : string :=
  match s with
  | EmptyString => EmptyString
  | String c r =>
      let r' := py_rstrip r in
      if py_isspace c && String.eqb r' EmptyString then EmptyString
      else String c r'
  end.

(** [s.strip()] *)
Definition py_strip (s : string) : string := py_rstrip (py_lstrip s).

(** [s.startswith(p)] *)
Fixpoint py_startswith (p s : string) : bool :=
  match p, s with
  | EmptyString, _ => true
  | String a p', String b s' => Ascii.eqb a b && py_startswith p' s'
  | String _ _, EmptyString => false
  end.

(** [str(n)] for a non-negative integer. *)
Definition py_str_nat (n : nat) : string :=
  NilEmpty.string_of_uint (Nat.to_uint n).

(** [f"{s: <{w}}"]: left-aligned, padded with spaces to width [w]. *)
Definition py_pad_left_align (w : nat) (s : string) : string :=
  (s ++ String.concat "" (repeat " " (w - String.length s)))%string.

(** ** Containers *)

(** [d[k] += 1] on a [defaultdict(int)] kept in insertion order. *)
Fixpoint dd_incr (k : string) (d : list (string * nat)) : list (string * nat) :=
  match d with
  | [] => [(k, 1)]
  | (k', n) :: d' =>
      if String.eqb k k' then (k', S n) :: d' else (k', n) :: dd_incr k d'
  end.

(** [s.add(x)] on a set. *)
Definition set_add (x : string) (s : list string) : list string :=
  if existsb (String.eqb x) s then s else s ++ [x].

(** [a - b] on sets; the result iterates in the order of [a]. *)
Definition set_diff (a b : list string) : list string :=
  filter (fun x => negb (existsb (String.eqb x) b)) a.

(** [{... for line in lines}]: building a set from an iterable. *)
Definition py_set_of (l : list string) : list string :=
  fold_left (fun s x => set_add x s) l [].

(** ** [LangAnalyzer._process_lines] *)

(** The local variables of the loop. *)
Record acc := mk_acc {
  prefix_counts : list (string * nat);
  empty_value_count : nat;
  unique_prefixes : list string;
  item_values : list string
}.

Definition acc0 : acc := mk_acc [] 0 [] [].

(** One iteration of [for line in lines:]. *)
Definition process_line (a : acc) (line : string) : exc acc :=
  let parts := py_split1 "." line in
  if 1 <? List.length parts then
    let* pv := py_unpack2 parts in
    let (prefix, value) := pv in
    let pc := dd_incr prefix a.(prefix_counts) in
    let up := set_add prefix a.(unique_prefixes) in
    let value_parts := py_split1 "=" value in
    let* evc :=
      if 1 <? List.length value_parts then
        let* v1 := py_getitem value_parts 1 in
        Ok (if String.eqb (py_strip v1) "" then S a.(empty_value_count)
            else a.(empty_value_count))
      else Ok a.(empty_value_count) in
    let* iv :=
      if py_startswith "item." line then
        try_index_error
          (let* v1 := py_getitem value_parts 1 in
           Ok (a.(item_values) ++ [py_strip v1]))
          (Ok a.(item_values))
      else Ok a.(item_values) in
    Ok (mk_acc pc evc up iv)
  else Ok a.

Fixpoint process_loop (a : acc) (lines : list string) : exc acc :=
  match lines with
  | [] => Ok a
  | line :: rest => let* a' := process_line a line in process_loop a' rest
  end.

(** [sorted(d.items(), key=lambda item: item[1], reverse=True)]: a stable
    sort by descending count (Python keeps equal keys in their original
    order also with [reverse=True]). *)
Fixpoint insert_desc (x : string * nat) (l : list (string * nat))
  : list (string * nat) :=
  match l with
  | [] => [x]
  | y :: l' => if snd y <? snd x then x :: y :: l' else y :: insert_desc x l'
  end.

Definition sort_desc (l : list (string * nat)) : list (string * nat) :=
  fold_left (fun s x => insert_desc x s) l [].

Record analysis := mk_analysis {
  r_prefix_counts : list (string * nat);
  r_empty_value_count : nat;
  r_total_length : nat;
  r_unique_prefixes : nat;
  r_item_values : list string;
  r_max_prefix_len : nat;
  r_new_lines_count : nat
}.

Definition process_lines (lines : list string) : exc analysis :=
  let total_length := list_sum (map String.length lines) in
  let* a := process_loop acc0 lines in
  let pc := sort_desc a.(prefix_counts) in
  let max_prefix_len :=
    match pc with
    | [] => 0
    | _ => list_max (map (fun kv => String.length (fst kv)) pc)
    end in
  Ok (mk_analysis pc a.(empty_value_count) total_length
        (List.length a.(unique_prefixes)) a.(item_values) max_prefix_len
        (List.length lines)).


(** ** Files and the console *)

(** A file is either readable, with its raw text, or unreadable (any
    error other than a missing file, e.g. a decoding or permission error). *)
Inductive entry := Readable (content : string) | Unreadable (err : string).

Record world := mk_world {
  fs : list (string * entry);   (* path -> file *)
  console : list string         (* printed messages, oldest first *)
}.

Fixpoint fs_lookup (p : string) (f : list (string * entry)) : option entry :=
  match f with
  | [] => None
  | (q, e) :: f' => if String.eqb p q then Some e else fs_lookup p f'
  end.

Fixpoint fs_write (p : string) (e : entry) (f : list (string * entry))
  : list (string * entry) :=
  match f with
  | [] => [(p, e)]
  | (q, e') :: f' => if String.eqb p q then (q, e) :: f' else (q, e') :: fs_write p e f'
  end.

Definition nl : ascii := "010".
Definition cr : ascii := "013".

(** Text-mode reading with universal newlines: "\r\n" and "\r" become "\n". *)
Fixpoint decode_newlines (s : string) : string :=
  match s with
  | EmptyString => EmptyString
  | String c r =>
      if Ascii.eqb c cr then
        match r with
        | String d r' =>
            if Ascii.eqb d nl then String nl (decode_newlines r')
            else String nl (decode_newlines r)
        | EmptyString => String nl EmptyString
        end
      else String c (decode_newlines r)
  end.

(** Text-mode writing: every "\n" becomes [os.linesep]. *)
Fixpoint encode_newlines (linesep : string) (s : string) : string :=
  match s with
  | EmptyString => EmptyString
  | String c r =>
      if Ascii.eqb c nl then (linesep ++ encode_newlines linesep r)%string
      else String c (encode_newlines linesep r)
  end.

(** [f.readlines()] on decoded text: each line keeps its "\n". *)
Fixpoint readlines_aux (cur : string) (s : string) : list string :=
  match s with
  | EmptyString => if String.eqb cur "" then [] else [cur]
  | String c r =>
      if Ascii.eqb c nl then (cur ++ String nl "")%string :: readlines_aux "" r
      else readlines_aux (cur ++ String c "")%string r
  end.

Definition readlines (s : string) : list string := readlines_aux "" s.

(** [LangAnalyzer.read_file]: the messages it prints and the set it returns. *)
Definition read_file (f : list (string * entry)) (p : string)
  : list string * list string :=
  match fs_lookup p f with
  | Some (Readable c) =>
      ([], py_set_of (map py_strip (readlines (decode_newlines c))))
  | None => ([("Error: File not found - " ++ p)%string], [])
  | Some (Unreadable e) => ([("Error reading file: " ++ p ++ ": " ++ e)%string], [])
  end.

(** [for line in lines: await file.write(line + '\n')] *)
Definition write_lines_text (lines : list string) : string :=
  String.concat "" (map (fun l => (l ++ String nl "")%string) lines).

(** Opening [p] with mode 'w' and writing [lines] through it. *)
Definition write_file (linesep : string) (p : string) (lines : list string)
  (f : list (string * entry)) : list (string * entry) :=
  fs_write p (Readable (encode_newlines linesep (write_lines_text lines))) f.

(** ** [find_latest_file] *)

(** [max(xs, key=k)]: the first element of greatest key; ValueError on an
    empty sequence. *)
Definition py_max_by {A} (k : A -> Z) (xs : list A) : exc A :=
  match xs with
  | [] => Raise ValueError
  | x :: r => Ok (fold_left (fun best y => if (k best <? k y)%Z then y else best) r x)
  end.

Section FindLatest.
(** A directory listing: each file's path and [st_mtime], in the order
    [directory.glob] yields them; [fnmatch] decides the glob pattern. *)
Variable fnmatch : string -> string -> bool.

Definition glob (directory : list (string * Z)) (pattern : string)
  : list (string * Z) :=
  filter (fun e => fnmatch pattern (fst e)) directory.

(** analyzer.py: returns [None] when nothing matches. *)
Definition find_latest_file (directory : list (string * Z)) (pattern : string)
  : option string :=
  let files := glob directory pattern in
  match files with
  | [] => None
  | _ => match py_max_by snd files with
         | Ok p => Some (fst p)
         | Raise _ => None
         end
  end.

(** utils.py: [str(max(files, key=..., default=None))]. *)
Definition find_latest_file_utils (directory : list (string * Z)) (pattern : string)
  : string :=
  match glob directory pattern with
  | [] => "None"
  | files => match py_max_by snd files with
             | Ok p => fst p
             | Raise _ => "None"
             end
  end.
End FindLatest.

(** ** [LangAnalyzer._format_log_data], [_write_logs], [analyze_file] *)

(** The run's configuration and the values it takes from the clock and the
    platform: [ts] is [datetime.now().strftime("%Y-%m-%d_%H-%M-%S")],
    [iso] is [datetime.now().isoformat()], [linesep] is [os.linesep]. *)
Record config := mk_config {
  dump_dir : string;
  log_dir : string;
  ts : string;
  iso : string;
  linesep : string
}.

(** [Path / name] *)
Definition path_join (d n : string) : string := (d ++ "/" ++ n)%string.

Definition log_file_path (c : config) : string :=
  path_join c.(log_dir) ("log_" ++ c.(ts) ++ ".txt")%string.

Definition dump_file_path (c : config) : string :=
  path_join c.(dump_dir) ("ru_lang_" ++ c.(ts) ++ ".txt")%string.

Definition format_log_data (c : config) (r : analysis) (new_lines : list string)
  (new_file_path : string) (old_file_path : option string) : list string :=
  [ ("Analysis time: " ++ c.(iso))%string;
    ("New file: " ++ new_file_path)%string;
    ("Comparison file: " ++ match old_file_path with
                            | Some p => p
                            | None => "Not found"
                            end)%string;
    ("Total number of new lines: " ++ py_str_nat r.(r_new_lines_count))%string;
    ("Number of lines with empty values: " ++ py_str_nat r.(r_empty_value_count))%string;
    ("Total length of new lines: " ++ py_str_nat r.(r_total_length))%string;
    ("Number of unique prefixes: " ++ py_str_nat r.(r_unique_prefixes))%string;
    String nl "Prefix statistics:" ]
  ++ map (fun kv => (py_pad_left_align r.(r_max_prefix_len) (fst kv) ++ ": "
                     ++ py_str_nat (snd kv))%string) r.(r_prefix_counts)
  ++ [String nl "New lines:"; ""]
  ++ new_lines.

Definition write_logs (c : config) (r : analysis) (new_lines : list string)
  (new_file_path : string) (old_file_path : option string) (w : world) : world :=
  let log_data := format_log_data c r new_lines new_file_path old_file_path in
  let f1 := write_file c.(linesep) (log_file_path c) log_data w.(fs) in
  let f2 := write_file c.(linesep) (dump_file_path c) new_lines f1 in
  mk_world f2 (w.(console) ++ ["Files written successfully!"]).

(** [analyze_file]; [old_file_path] is the result of
    [find_latest_file(self.config.dump_dir, "ru_lang_*.txt")]. *)
Definition analyze_file (c : config) (old_file_path : option string)
  (new_file_path : string) (w : world) : exc world :=
  let (msg_old, old_lines) :=
    match old_file_path with
    | Some p => read_file w.(fs) p
    | None => ([], [])
    end in
  let (msg_new, new_lines) := read_file w.(fs) new_file_path in
  let w1 := mk_world w.(fs) (w.(console) ++ msg_old ++ msg_new) in
  let* r := process_lines (set_diff new_lines old_lines) in
  Ok (write_logs c r new_lines new_file_path old_file_path w1).

(** A concrete run: one earlier snapshot with one line, a new file with two. *)
Definition cfg_ex : config := mk_config "dumps" "logs" "2024-01-01_00-00-00"
  "2024-01-01T00:00:00" (String nl "").

(** A second run, one day later. *)
Definition cfg_ex2 : config := mk_config "dumps" "logs" "2024-01-02_00-00-00"
  "2024-01-02T00:00:00" (String nl "").

Definition world_ex : world :=
  mk_world [("dumps/ru_lang_old.txt", Readable "a.x=1
");
            ("ru.lang", Readable "a.x=1
b.y=2
")] [].

(** ** Vocabulary of the claims *)

(** [c in s] *)
Fixpoint str_has (c : ascii) (s : string) : bool :=
  match s with
  | EmptyString => false
  | String d r => Ascii.eqb d c || str_has c r
  end.

(** Sum of the values of a count mapping. *)
Definition sum_counts (d : list (string * nat)) : nat := list_sum (map snd d).

(** ** Vocabulary of the extra properties *)

(** The prefix [_process_lines] takes from a line, if any. *)
Definition prefix_of (line : string) : option string :=
  match py_split1 "." line with
  | [p; _] => Some p
  | _ => None
  end.

(** [d.get(k, 0)] on a count mapping. *)
Fixpoint count_get (k : string) (d : list (string * nat)) : nat :=
  match d with
  | [] => 0
  | (k', n) :: d' => if String.eqb k k' then n else count_get k d'
  end.

(** Number of lines whose prefix is [p]. *)
Definition lines_with_prefix (p : string) (lines : list string) : nat :=
  List.length (filter (fun l => match prefix_of l with
                                | Some q => String.eqb q p
                                | None => false
                                end) lines).

(** * Proofs *)

Example process_lines_ex :
  process_lines ["item.1=Sword"; "item.2="; "ui.title=Menu"; "key="; "item.3"] =
  Ok (mk_analysis [("item", 3); ("ui", 1)] 1 42 2 ["Sword"; ""] 4 5).
Proof. reflexivity. Qed.

(** ** [split(c, 1)] *)

Lemma py_split1_absent c s :
  str_has c s = false -> py_split1 c s = [s].
Proof.
  induction s as [|d r IH]; simpl; [reflexivity|].
  intros H. apply orb_false_iff in H as [H1 H2].
  rewrite H1, (IH H2). reflexivity.
Qed.

Lemma py_split1_at c p q :
  str_has c p = false -> py_split1 c (p ++ String c q)%string = [p; q].
Proof.
  induction p as [|d r IH]; simpl.
  - rewrite Ascii.eqb_refl. reflexivity.
  - intros H. apply orb_false_iff in H as [H1 H2].
    rewrite H1, (IH H2). reflexivity.
Qed.

(** [s.split(c, 1)] either returns [s] alone, when [c] does not occur, or
    the parts around the first [c]. *)
Lemma py_split1_cases c s :
  (str_has c s = false /\ py_split1 c s = [s]) \/
  (exists p q, str_has c p = false /\ s = (p ++ String c q)%string /\
               py_split1 c s = [p; q]).
Proof.
  induction s as [|d r IH]; simpl.
  - left. split; reflexivity.
  - destruct (Ascii.eqb d c) eqn:E.
    + apply Ascii.eqb_eq in E; subst d. right.
      exists EmptyString, r. repeat split.
    + destruct IH as [[H1 H2] | (p & q & H1 & H2 & H3)].
      * left. rewrite H1, H2. split; reflexivity.
      * right. rewrite H3. exists (String d p), q.
        simpl. rewrite E, H1, H2. repeat split.
Qed.

Lemma py_startswith_app p s : py_startswith p (p ++ s)%string = true.
Proof.
  induction p as [|a p IH]; simpl; [reflexivity|].
  rewrite Ascii.eqb_refl, IH. reflexivity.
Qed.

Lemma py_startswith_inv p s :
  py_startswith p s = true -> exists t, s = (p ++ t)%string.
Proof.
  revert s. induction p as [|a p IH]; intros s H; simpl.
  - exists s. reflexivity.
  - destruct s as [|b s]; [discriminate|].
    simpl in H. apply andb_true_iff in H as [H1 H2].
    apply Ascii.eqb_eq in H1; subst b.
    destruct (IH s H2) as [t ->]. exists t. reflexivity.
Qed.

Lemma str_has_at c p q : str_has c (p ++ String c q)%string = true.
Proof.
  induction p as [|d r IH]; simpl.
  - rewrite Ascii.eqb_refl. reflexivity.
  - rewrite IH. apply orb_true_r.
Qed.

(** ** One iteration of the loop of [_process_lines] *)

Lemma process_line_nodot a line :
  str_has "." line = false -> process_line a line = Ok a.
Proof.
  intros H. unfold process_line. rewrite (py_split1_absent _ _ H). reflexivity.
Qed.

(** A line with a ['.'] whose value part has no ['=']. *)
Lemma process_line_dot_noeq a p v :
  str_has "." p = false -> str_has "=" v = false ->
  process_line a (p ++ String "." v)%string =
  Ok (mk_acc (dd_incr p a.(prefix_counts)) a.(empty_value_count)
             (set_add p a.(unique_prefixes)) a.(item_values)).
Proof.
  intros Hp Hv. unfold process_line.
  rewrite (py_split1_at _ _ _ Hp). cbn -[py_split1 py_startswith].
  rewrite (py_split1_absent _ _ Hv). cbn -[py_startswith].
  destruct (py_startswith _ _); reflexivity.
Qed.

(** A line with a ['.'] whose value part is [k = w], [k] without ['=']. *)
Lemma process_line_dot_eq a p k w :
  str_has "." p = false -> str_has "=" k = false ->
  process_line a (p ++ String "." (k ++ String "=" w))%string =
  Ok (mk_acc (dd_incr p a.(prefix_counts))
             (if String.eqb (py_strip w) "" then S a.(empty_value_count)
              else a.(empty_value_count))
             (set_add p a.(unique_prefixes))
             (if py_startswith "item." (p ++ String "." (k ++ String "=" w))
              then a.(item_values) ++ [py_strip w] else a.(item_values))).
Proof.
  intros Hp Hk. unfold process_line.
  rewrite (py_split1_at _ _ _ Hp). cbn -[py_split1 py_startswith py_strip].
  rewrite (py_split1_at _ _ _ Hk). cbn -[py_startswith py_strip].
  destruct (py_startswith _ _); reflexivity.
Qed.

Lemma dd_incr_sum k d : sum_counts (dd_incr k d) = S (sum_counts d).
Proof.
  unfold sum_counts. induction d as [|[k' n] d IH]; simpl; [reflexivity|].
  destruct (String.eqb k k'); simpl; [reflexivity|]. rewrite IH. lia.
Qed.

Definition b2n (b : bool) : nat := if b then 1 else 0.

Lemma process_line_step a line :
  exists a', process_line a line = Ok a' /\
    sum_counts a'.(prefix_counts) = sum_counts a.(prefix_counts) + b2n (str_has "." line) /\
    a'.(empty_value_count) <= a.(empty_value_count) + b2n (str_has "." line) /\
    (str_has "." line = false -> a' = a).
Proof.
  destruct (py_split1_cases "." line) as [[H1 _] | (p & q & Hp & -> & _)].
  - exists a. rewrite process_line_nodot by exact H1. rewrite H1. simpl.
    repeat split; lia.
  - rewrite str_has_at. simpl.
    destruct (py_split1_cases "=" q) as [[Hq _] | (k & w & Hk & -> & _)].
    + rewrite process_line_dot_noeq by assumption.
      eexists. split; [reflexivity|]. simpl. rewrite dd_incr_sum.
      repeat split; [lia | lia | discriminate].
    + rewrite process_line_dot_eq by assumption.
      eexists. split; [reflexivity|]. simpl. rewrite dd_incr_sum.
      repeat split; [lia | | discriminate].
      destruct (String.eqb _ _); lia.
Qed.

(** ** The whole loop *)

(** Lines without a ['.'] leave the loop state untouched. *)
Lemma process_loop_filter a l :
  process_loop a l = process_loop a (filter (str_has ".") l).
Proof.
  revert a. induction l as [|x l IH]; intros a; simpl; [reflexivity|].
  destruct (str_has "." x) eqn:E; simpl.
  - destruct (process_line a x); simpl; [apply IH | reflexivity].
  - rewrite process_line_nodot by exact E. simpl. apply IH.
Qed.

Lemma process_loop_counts a l :
  exists a', process_loop a l = Ok a' /\
    sum_counts a'.(prefix_counts) =
      sum_counts a.(prefix_counts) + List.length (filter (str_has ".") l) /\
    a'.(empty_value_count) <=
      a.(empty_value_count) + List.length (filter (str_has ".") l).
Proof.
  revert a. induction l as [|x l IH]; intros a; simpl.
  - exists a. repeat split; lia.
  - destruct (process_line_step a x) as (a1 & E & S1 & E1 & _).
    rewrite E. simpl. destruct (IH a1) as (a2 & E2 & S2 & E3).
    exists a2. split; [exact E2|].
    destruct (str_has "." x); simpl in *; lia.
Qed.

(** ** The sort *)

Lemma insert_desc_perm x l : Permutation (insert_desc x l) (x :: l).
Proof.
  induction l as [|y l IH]; simpl; [reflexivity|].
  destruct (snd y <? snd x); [reflexivity|].
  rewrite IH. apply perm_swap.
Qed.

Lemma sort_desc_perm_aux l s :
  Permutation (fold_left (fun s x => insert_desc x s) l s) (l ++ s).
Proof.
  revert s. induction l as [|x l IH]; intros s; simpl; [reflexivity|].
  rewrite IH, insert_desc_perm. symmetry. apply Permutation_middle.
Qed.

Lemma sort_desc_perm l : Permutation (sort_desc l) l.
Proof.
  unfold sort_desc. rewrite sort_desc_perm_aux, app_nil_r. reflexivity.
Qed.

Lemma sort_desc_sum l : sum_counts (sort_desc l) = sum_counts l.
Proof.
  unfold sum_counts. apply Permutation_list_sum, Permutation_map, sort_desc_perm.
Qed.

Lemma filter_length_all {A} (f : A -> bool) l :
  List.length (filter f l) = List.length l <-> Forall (fun x => f x = true) l.
Proof.
  split.
  - intros H. apply Forall_forall. intros x Hx.
    apply filter_length_forallb in H. rewrite forallb_forall in H. auto.
  - induction 1 as [|x l Hx _ IH]; simpl; [reflexivity|].
    rewrite Hx. simpl. rewrite IH. reflexivity.
Qed.

(** ** Claims on [_process_lines] *)

(** C4: the values of [prefix_counts] sum to the number of lines containing
    a ['.']; so the sum is at most the number of new lines, with equality
    exactly when every line contains a ['.']. *)
Theorem prefix_counts_sum_dotted (lines : list string) :
  match process_lines lines with
  | Ok r =>
      sum_counts r.(r_prefix_counts) = List.length (filter (str_has ".") lines) /\
      sum_counts r.(r_prefix_counts) <= r.(r_new_lines_count) /\
      (sum_counts r.(r_prefix_counts) = r.(r_new_lines_count) <->
       Forall (fun l => str_has "." l = true) lines)
  | Raise _ => False
  end.
Proof.
  unfold process_lines.
  destruct (process_loop_counts acc0 lines) as (a & E & Hs & _).
  rewrite E. simpl. rewrite sort_desc_sum, Hs. simpl.
  split; [reflexivity|]. split.
  - apply filter_length_le.
  - apply filter_length_all.
Qed.

(** C8: [_process_lines] never raises; a line without ['.'] leaves every
    statistic untouched, and a line with a ['.'] but no ['='] after it
    changes neither the empty-value count nor the item values. *)
Theorem process_lines_total_skips :
  (forall lines, exists r, process_lines lines = Ok r) /\
  (forall a line, str_has "." line = false -> process_line a line = Ok a) /\
  (forall a p v, str_has "." p = false -> str_has "=" v = false ->
     exists a', process_line a (p ++ String "." v)%string = Ok a' /\
       a'.(empty_value_count) = a.(empty_value_count) /\
       a'.(item_values) = a.(item_values)).
Proof.
  split; [|split].
  - intros lines. unfold process_lines.
    destruct (process_loop_counts acc0 lines) as (a & E & _).
    rewrite E. simpl. eexists. reflexivity.
  - apply process_line_nodot.
  - intros a p v Hp Hv. rewrite process_line_dot_noeq by assumption.
    eexists. repeat split.
Qed.

(** C10: the empty-value count only counts lines with a ['.'] (dropping the
    lines without one, such as ["key="], does not change it), and it never
    exceeds the sum of the [prefix_counts] values. *)
Theorem empty_value_count_dotted (lines : list string) :
  match process_lines lines, process_lines (filter (str_has ".") lines) with
  | Ok r, Ok r' =>
      r.(r_empty_value_count) = r'.(r_empty_value_count) /\
      r.(r_empty_value_count) <= sum_counts r.(r_prefix_counts)
  | _, _ => False
  end.
Proof.
  unfold process_lines. rewrite (process_loop_filter acc0 lines).
  destruct (process_loop_counts acc0 (filter (str_has ".") lines))
    as (a & E & Hs & He).
  rewrite E. simpl.
  split; [reflexivity|]. rewrite sort_desc_sum, Hs. simpl in *. lia.
Qed.

(** Splitting at the first occurrence of a character is unique. *)
Lemma split_first_unique c p q p' q' :
  str_has c p = false -> str_has c p' = false ->
  (p ++ String c q)%string = (p' ++ String c q')%string -> p = p' /\ q = q'.
Proof.
  revert p'. induction p as [|d r IH]; intros [|d' r'] Hp Hp' E; simpl in *.
  - injection E as ->. split; reflexivity.
  - injection E as Ed _. subst d'. rewrite Ascii.eqb_refl in Hp'. discriminate.
  - injection E as Ed _. subst d. rewrite Ascii.eqb_refl in Hp. discriminate.
  - apply orb_false_iff in Hp as [_ Hp]. apply orb_false_iff in Hp' as [_ Hp'].
    injection E as -> E. destruct (IH r' Hp Hp' E) as [-> ->].
    split; reflexivity.
Qed.

Lemma item_dot (t : string) : ("item." ++ t)%string = ("item" ++ String "." t)%string.
Proof. reflexivity. Qed.

(** C6: a line adds an entry to [item_values] exactly when its prefix is
    ["item"] (the line starts with ["item."]) and an ['='] occurs after the
    first ['.']; the entry is the stripped text after the first ['='].  Any
    other line, in particular one without ['='], leaves [item_values]
    unchanged and raises nothing. *)
Theorem item_values_entry a line :
  exists a', process_line a line = Ok a' /\
    (forall k w, line = ("item." ++ k ++ String "=" w)%string ->
       str_has "=" k = false ->
       a'.(item_values) = a.(item_values) ++ [py_strip w]) /\
    ((forall k w, line <> ("item." ++ k ++ String "=" w)%string) ->
       a'.(item_values) = a.(item_values)).
Proof.
  destruct (py_split1_cases "." line) as [[H1 _] | (p & q & Hp & -> & _)].
  - exists a. rewrite process_line_nodot by exact H1.
    split; [reflexivity|]. split; [|reflexivity].
    intros k w -> _. discriminate H1.
  - destruct (py_split1_cases "=" q) as [[Hq _] | (k & w & Hk & -> & _)].
    + rewrite process_line_dot_noeq by assumption.
      eexists. split; [reflexivity|]. cbn [item_values]. split; [|reflexivity].
      intros k w E Hk. rewrite item_dot in E.
      apply split_first_unique in E as [_ E]; [|exact Hp|reflexivity].
      subst q. rewrite str_has_at in Hq. discriminate.
    + rewrite process_line_dot_eq by assumption.
      eexists. split; [reflexivity|]. cbn [item_values]. split.
      * intros k' w' E Hk'.
        pose proof E as E0. rewrite item_dot in E.
        apply split_first_unique in E as [-> E]; [|exact Hp|reflexivity].
        apply split_first_unique in E as [-> ->]; [|exact Hk|exact Hk'].
        rewrite <- item_dot, py_startswith_app. reflexivity.
      * intros Hne.
        destruct (py_startswith "item." _) eqn:Es; [|reflexivity].
        apply py_startswith_inv in Es as [t Et].
        rewrite item_dot in Et.
        apply split_first_unique in Et as [-> Et]; [|exact Hp|reflexivity].
        exfalso. apply (Hne k w). reflexivity.
Qed.

(** ** The worked example of the spec *)

Definition example_lines : list string :=
  ["item.1=Sword"; "item.2="; "ui.title=Menu"].

(** C5: whatever the iteration order of the set
    [{"item.1=Sword", "item.2=", "ui.title=Menu"}], diffed against the empty
    set, the analysis gives [prefix_counts = {item: 2, ui: 1}],
    [empty_value_count = 1], [unique_prefixes = 2], and [item_values] is a
    reordering of [["Sword"; ""]]. *)
Theorem example_analysis (l : list string) :
  Permutation l example_lines ->
  match process_lines (set_diff l []) with
  | Ok r =>
      r.(r_prefix_counts) = [("item", 2); ("ui", 1)] /\
      r.(r_empty_value_count) = 1 /\
      r.(r_unique_prefixes) = 2 /\
      Permutation r.(r_item_values) ["Sword"; ""]
  | Raise _ => False
  end.
Proof.
  intros HP.
  assert (Hlen := Permutation_length HP).
  assert (Hin : forall x, In x l -> In x example_lines)
    by (intros x Hx; exact (Permutation_in _ HP Hx)).
  assert (Hnd : NoDup l).
  { apply (Permutation_NoDup (Permutation_sym HP)).
    unfold example_lines.
    repeat constructor; simpl; intuition discriminate. }
  destruct l as [|x1 [|x2 [|x3 [|]]]]; simpl in Hlen; try discriminate.
  assert (H1 := Hin x1 ltac:(simpl; tauto)).
  assert (H2 := Hin x2 ltac:(simpl; tauto)).
  assert (H3 := Hin x3 ltac:(simpl; tauto)).
  unfold example_lines in H1, H2, H3; simpl in H1, H2, H3.
  destruct H1 as [<-|[<-|[<-|[]]]];
  destruct H2 as [<-|[<-|[<-|[]]]];
  destruct H3 as [<-|[<-|[<-|[]]]];
  try (exfalso; inversion Hnd as [|? ? Hn1 Hnd2];
       inversion Hnd2 as [|? ? Hn2 _]; simpl in *; tauto);
  vm_compute; repeat split; first [apply Permutation_refl | apply perm_swap].
Qed.

Lemma example_analysis_witness :
  Permutation example_lines example_lines /\
  match process_lines (set_diff example_lines []) with
  | Ok r =>
      r.(r_prefix_counts) = [("item", 2); ("ui", 1)] /\
      r.(r_empty_value_count) = 1 /\
      r.(r_unique_prefixes) = 2 /\
      Permutation r.(r_item_values) ["Sword"; ""]
  | Raise _ => False
  end.
Proof.
  split; [apply Permutation_refl|].
  apply (example_analysis example_lines). apply Permutation_refl.
Defined.

(** ** Writing a snapshot and reading it back *)

Lemma fs_lookup_write p e f : fs_lookup p (fs_write p e f) = Some e.
Proof.
  induction f as [|[q e'] f IH]; simpl.
  - rewrite String.eqb_refl. reflexivity.
  - destruct (String.eqb p q) eqn:E; simpl; rewrite E; [reflexivity | exact IH].
Qed.

Lemma str_app_nil_r (s : string) : (s ++ "")%string = s.
Proof. induction s as [|c s IH]; simpl; [reflexivity | rewrite IH; reflexivity]. Qed.

Lemma str_app_assoc (a b c : string) : (a ++ (b ++ c))%string = ((a ++ b) ++ c)%string.
Proof. induction a as [|d a IH]; simpl; [reflexivity | rewrite IH; reflexivity]. Qed.

Lemma str_has_app c a b : str_has c (a ++ b)%string = str_has c a || str_has c b.
Proof.
  induction a as [|d a IH]; simpl; [reflexivity|]. rewrite IH. apply orb_assoc.
Qed.

Lemma write_lines_text_cons x l :
  write_lines_text (x :: l) = (x ++ String nl "" ++ write_lines_text l)%string.
Proof.
  unfold write_lines_text. simpl. destruct l as [|y l]; simpl.
  - reflexivity.
  - rewrite <- str_app_assoc. reflexivity.
Qed.

Lemma decode_encode_newlines ls s :
  (ls = String nl "" \/ ls = String cr (String nl "")) ->
  str_has cr s = false ->
  decode_newlines (encode_newlines ls s) = s.
Proof.
  intros Hls. induction s as [|c r IH]; simpl; intros H; [reflexivity|].
  apply orb_false_iff in H as [Hc Hr].
  destruct (Ascii.eqb c nl) eqn:En.
  - apply Ascii.eqb_eq in En; subst c.
    destruct Hls as [-> | ->]; simpl; rewrite (IH Hr); reflexivity.
  - simpl. rewrite Hc, (IH Hr). reflexivity.
Qed.

Lemma readlines_aux_line cur x rest :
  str_has nl x = false ->
  readlines_aux cur (x ++ String nl rest)%string =
  (cur ++ x ++ String nl "")%string :: readlines_aux "" rest.
Proof.
  revert cur. induction x as [|c x IH]; intros cur H; simpl.
  - reflexivity.
  - simpl in H. apply orb_false_iff in H as [Hc Hx].
    rewrite Hc, (IH _ Hx), <- str_app_assoc. reflexivity.
Qed.

Lemma readlines_write_lines lines :
  Forall (fun x => str_has nl x = false) lines ->
  readlines (write_lines_text lines) =
  map (fun x => (x ++ String nl "")%string) lines.
Proof.
  unfold readlines. induction 1 as [|x l Hx _ IH]; [reflexivity|].
  rewrite write_lines_text_cons. cbn [String.append].
  rewrite readlines_aux_line by exact Hx.
  rewrite IH. reflexivity.
Qed.

Lemma str_has_write_lines c lines :
  c <> nl -> Forall (fun x => str_has c x = false) lines ->
  str_has c (write_lines_text lines) = false.
Proof.
  intros Hc. induction 1 as [|x l Hx _ IH]; [reflexivity|].
  assert (E : Ascii.eqb nl c = false) by (apply Ascii.eqb_neq; congruence).
  rewrite write_lines_text_cons, !str_has_app, Hx, IH.
  cbn [str_has]. rewrite E. reflexivity.
Qed.

Lemma py_lstrip_app x y :
  py_lstrip (x ++ y)%string =
  if String.eqb (py_lstrip x) "" then py_lstrip y else (py_lstrip x ++ y)%string.
Proof.
  induction x as [|c x IH]; simpl; [reflexivity|].
  destruct (py_isspace c); [exact IH | reflexivity].
Qed.

Lemma py_rstrip_nl x : py_rstrip (x ++ String nl "")%string = py_rstrip x.
Proof.
  induction x as [|c x IH]; simpl; [reflexivity|]. rewrite IH. reflexivity.
Qed.

Lemma py_strip_nl x : py_strip (x ++ String nl "")%string = py_strip x.
Proof.
  unfold py_strip. rewrite py_lstrip_app.
  destruct (String.eqb (py_lstrip x) "") eqn:E.
  - apply String.eqb_eq in E. rewrite E. reflexivity.
  - apply py_rstrip_nl.
Qed.

Lemma set_add_in x y s : In x (set_add y s) <-> In x s \/ x = y.
Proof.
  unfold set_add. destruct (existsb (String.eqb y) s) eqn:E.
  - apply existsb_exists in E as (z & Hz & Ez). apply String.eqb_eq in Ez. subst z.
    split; [tauto|]. intros [H | ->]; assumption.
  - rewrite in_app_iff. simpl. intuition.
Qed.

Lemma py_set_of_in_aux x l s :
  In x (fold_left (fun s y => set_add y s) l s) <-> In x s \/ In x l.
Proof.
  revert s. induction l as [|y l IH]; intros s; simpl; [tauto|].
  rewrite IH, set_add_in. intuition.
Qed.

Lemma py_set_of_in x l : In x (py_set_of l) <-> In x l.
Proof. unfold py_set_of. rewrite py_set_of_in_aux. simpl. tauto. Qed.

(** C7: writing a set of stripped lines free of line terminators ("\n"
    and "\r", the terminators of universal-newline reading) one per line,
    with either platform line separator, and reading the file back with
    [read_file] gives the same set of lines. *)
Theorem snapshot_roundtrip (ls p : string) (f : list (string * entry))
    (lines : list string) :
  (ls = String nl "" \/ ls = String cr (String nl "")) ->
  Forall (fun x => py_strip x = x /\ str_has nl x = false /\ str_has cr x = false)
    lines ->
  forall x, In x (snd (read_file (write_file ls p lines f) p)) <-> In x lines.
Proof.
  intros Hls Hl x.
  unfold read_file, write_file. rewrite fs_lookup_write. simpl.
  rewrite decode_encode_newlines.
  2: exact Hls.
  2: { apply str_has_write_lines; [discriminate|].
       eapply Forall_impl; [|exact Hl]. simpl. tauto. }
  rewrite readlines_write_lines.
  2: { eapply Forall_impl; [|exact Hl]. simpl. tauto. }
  rewrite map_map, py_set_of_in.
  rewrite (map_ext_in _ (fun x => x)).
  - rewrite map_id. reflexivity.
  - intros y Hy. rewrite py_strip_nl.
    rewrite Forall_forall in Hl. apply (Hl y Hy).
Qed.

Lemma snapshot_roundtrip_witness :
  (String nl "" = String nl "" \/ String nl "" = String cr (String nl "")) /\
  Forall (fun x => py_strip x = x /\ str_has nl x = false /\ str_has cr x = false)
    ["a.x=1"; "b.y="] /\
  (forall x, In x (snd (read_file (write_file (String nl "") "dumps/ru_lang_t.txt"
                                     ["a.x=1"; "b.y="] []) "dumps/ru_lang_t.txt"))
             <-> In x ["a.x=1"; "b.y="]).
Proof.
  assert (Hls : String nl "" = String nl "" \/ String nl "" = String cr (String nl ""))
    by (left; reflexivity).
  assert (Hl : Forall (fun x => py_strip x = x /\ str_has nl x = false /\
                                str_has cr x = false) ["a.x=1"; "b.y="])
    by (repeat constructor).
  split; [exact Hls|]. split; [exact Hl|].
  exact (snapshot_roundtrip (String nl "") "dumps/ru_lang_t.txt" [] _ Hls Hl).
Defined.

(** ** Runs of [analyze_file] *)

Lemma fs_lookup_write_other p q e f :
  p <> q -> fs_lookup p (fs_write q e f) = fs_lookup p f.
Proof.
  intros Hne. induction f as [|[r e'] f IH]; simpl.
  - destruct (String.eqb p q) eqn:E; [apply String.eqb_eq in E; congruence|reflexivity].
  - destruct (String.eqb q r) eqn:Eq; simpl.
    + apply String.eqb_eq in Eq. subst r.
      destruct (String.eqb p q) eqn:E; [apply String.eqb_eq in E; congruence|reflexivity].
    + destruct (String.eqb p r); [reflexivity | exact IH].
Qed.

(** The analysis of an empty set of new lines. *)
Definition empty_analysis : analysis := mk_analysis [] 0 0 0 [] 0 0.

(** C1 (amended): when the new file is missing or unreadable, [read_file]
    prints an error naming it and returns the empty set; the run goes on and
    writes a log reporting no new lines and an empty dump file. *)
Theorem missing_new_file_still_writes (c : config) (old : option string)
    (nf : string) (w : world) :
  log_file_path c <> dump_file_path c ->
  (fs_lookup nf w.(fs) = None \/ exists e, fs_lookup nf w.(fs) = Some (Unreadable e)) ->
  match analyze_file c old nf w with
  | Ok w' =>
      (In ("Error: File not found - " ++ nf)%string w'.(console) \/
       exists e, In ("Error reading file: " ++ nf ++ ": " ++ e)%string w'.(console)) /\
      fs_lookup (log_file_path c) w'.(fs) =
        Some (Readable (encode_newlines c.(linesep)
                (write_lines_text (format_log_data c empty_analysis [] nf old)))) /\
      fs_lookup (dump_file_path c) w'.(fs) = Some (Readable "")
  | Raise _ => False
  end.
Proof.
  intros Hpaths Hnf. unfold analyze_file.
  destruct (match old with Some p => read_file w.(fs) p | None => ([], []) end)
    as [msg_old old_lines].
  assert (Hp : process_lines (set_diff [] old_lines) = Ok empty_analysis)
    by reflexivity.
  assert (Hr : exists msg, read_file w.(fs) nf = ([msg], []) /\
            (msg = ("Error: File not found - " ++ nf)%string \/
             exists e, msg = ("Error reading file: " ++ nf ++ ": " ++ e)%string)).
  { unfold read_file. destruct Hnf as [H | [e H]]; rewrite H;
      eexists; (split; [reflexivity|]); [left | right; exists e]; reflexivity. }
  destruct Hr as (msg & Hr & Hmsg). rewrite Hr. cbv beta iota zeta.
  rewrite Hp. cbn [exc_bind]. unfold write_logs. cbn [fs console].
  split; [|split].
  - destruct Hmsg as [-> | [e ->]]; [left | right; exists e];
      rewrite !in_app_iff; simpl; tauto.
  - unfold write_file. rewrite fs_lookup_write_other by exact Hpaths.
    apply fs_lookup_write.
  - unfold write_file. apply fs_lookup_write.
Qed.

Lemma missing_new_file_still_writes_witness :
  log_file_path cfg_ex <> dump_file_path cfg_ex /\
  (fs_lookup "missing.lang" world_ex.(fs) = None \/
   exists e, fs_lookup "missing.lang" world_ex.(fs) = Some (Unreadable e)) /\
  match analyze_file cfg_ex None "missing.lang" world_ex with
  | Ok w' =>
      (In ("Error: File not found - " ++ "missing.lang")%string w'.(console) \/
       exists e, In ("Error reading file: " ++ "missing.lang" ++ ": " ++ e)%string
                   w'.(console)) /\
      fs_lookup (log_file_path cfg_ex) w'.(fs) =
        Some (Readable (encode_newlines cfg_ex.(linesep)
                (write_lines_text
                   (format_log_data cfg_ex empty_analysis [] "missing.lang" None)))) /\
      fs_lookup (dump_file_path cfg_ex) w'.(fs) = Some (Readable "")
  | Raise _ => False
  end.
Proof.
  assert (H1 : log_file_path cfg_ex <> dump_file_path cfg_ex) by discriminate.
  assert (H2 : fs_lookup "missing.lang" world_ex.(fs) = None \/
               exists e, fs_lookup "missing.lang" world_ex.(fs) = Some (Unreadable e))
    by (left; reflexivity).
  split; [exact H1|]. split; [exact H2|].
  exact (missing_new_file_still_writes cfg_ex None "missing.lang" world_ex H1 H2).
Defined.

(** C1 fails as stated: with the new file missing, the run still creates a
    log file and a dump file that did not exist before. *)
Lemma missing_new_file_counterexample :
  fs_lookup "missing.lang" world_ex.(fs) = None /\
  fs_lookup (log_file_path cfg_ex) world_ex.(fs) = None /\
  fs_lookup (dump_file_path cfg_ex) world_ex.(fs) = None /\
  match analyze_file cfg_ex None "missing.lang" world_ex with
  | Ok w' =>
      fs_lookup (log_file_path cfg_ex) w'.(fs) <> None /\
      fs_lookup (dump_file_path cfg_ex) w'.(fs) <> None
  | Raise _ => False
  end.
Proof.
  vm_compute. repeat split; discriminate.
Qed.

(** C3 (amended): the dump file [ru_lang_<timestamp>.txt] receives the whole
    current line set read from the new file, one line per entry, not only
    the lines that are new with respect to the previous snapshot. *)
Theorem dump_is_current_snapshot (c : config) (old : option string)
    (nf : string) (w : world) :
  match analyze_file c old nf w with
  | Ok w' =>
      fs_lookup (dump_file_path c) w'.(fs) =
        Some (Readable (encode_newlines c.(linesep)
                (write_lines_text (snd (read_file w.(fs) nf)))))
  | Raise _ => False
  end.
Proof.
  unfold analyze_file.
  destruct (match old with Some p => read_file w.(fs) p | None => ([], []) end)
    as [msg_old old_lines].
  destruct (read_file w.(fs) nf) as [msg_new new_lines] eqn:Hr.
  cbv beta iota zeta.
  unfold process_lines.
  destruct (process_loop_counts acc0 (set_diff new_lines old_lines)) as (a & E & _).
  rewrite E. cbn [exc_bind]. unfold write_logs, write_file. cbn [fs].
  apply fs_lookup_write.
Qed.

(** C3 fails as stated: the previous snapshot holds ["a.x=1"], the new file
    holds ["a.x=1"] and ["b.y=2"]; the diff is [["b.y=2"]], but the dump
    file written by the run holds both lines. *)
Lemma dump_not_diff_counterexample :
  set_diff (snd (read_file world_ex.(fs) "ru.lang"))
           (snd (read_file world_ex.(fs) "dumps/ru_lang_old.txt")) = ["b.y=2"] /\
  match analyze_file cfg_ex (Some "dumps/ru_lang_old.txt") "ru.lang" world_ex with
  | Ok w' =>
      fs_lookup (dump_file_path cfg_ex) w'.(fs) =
        Some (Readable (write_lines_text ["a.x=1"; "b.y=2"]))
  | Raise _ => False
  end.
Proof.
  vm_compute. split; reflexivity.
Qed.

(** C2: on the same run the log reports one new line, yet its closing
    listing under "New lines:" is the whole current snapshot
    [["a.x=1"; "b.y=2"]] rather than the diff [["b.y=2"]]. *)
Theorem log_lists_whole_snapshot :
  set_diff (snd (read_file world_ex.(fs) "ru.lang"))
           (snd (read_file world_ex.(fs) "dumps/ru_lang_old.txt")) = ["b.y=2"] /\
  match analyze_file cfg_ex (Some "dumps/ru_lang_old.txt") "ru.lang" world_ex with
  | Ok w' =>
      fs_lookup (log_file_path cfg_ex) w'.(fs) =
        Some (Readable (write_lines_text
          [ "Analysis time: 2024-01-01T00:00:00";
            "New file: ru.lang";
            "Comparison file: dumps/ru_lang_old.txt";
            "Total number of new lines: 1";
            "Number of lines with empty values: 0";
            "Total length of new lines: 5";
            "Number of unique prefixes: 1";
            String nl "Prefix statistics:";
            "b: 1";
            String nl "New lines:";
            "";
            "a.x=1";
            "b.y=2" ]))
  | Raise _ => False
  end.
Proof.
  vm_compute. split; reflexivity.
Qed.

(** ** [find_latest_file] *)

Lemma max_fold_spec {A} (k : A -> Z) (r : list A) (best : A) :
  let b := fold_left (fun best y => if (k best <? k y)%Z then y else best) r best in
  In b (best :: r) /\ (k best <= k b)%Z /\ forall y, In y r -> (k y <= k b)%Z.
Proof.
  revert best. induction r as [|y r IH]; intros best; simpl.
  - split; [left; reflexivity|]. split; [lia | intros _ []].
  - destruct (k best <? k y)%Z eqn:E.
    + apply Z.ltb_lt in E. destruct (IH y) as (H1 & H2 & H3).
      split; [simpl in H1; tauto|]. split; [lia|].
      intros z [<- | Hz]; [lia | auto].
    + apply Z.ltb_ge in E. destruct (IH best) as (H1 & H2 & H3).
      split; [simpl in H1; tauto|]. split; [lia|].
      intros z [<- | Hz]; [lia | auto].
Qed.

(** The analyzer.py version: [None] exactly when no file matches, and
    otherwise a matching file whose [st_mtime] no other match exceeds. *)
Lemma find_latest_file_spec fnmatch directory pattern :
  match find_latest_file fnmatch directory pattern with
  | None => glob fnmatch directory pattern = []
  | Some p => exists m, In (p, m) (glob fnmatch directory pattern) /\
                forall e, In e (glob fnmatch directory pattern) -> (snd e <= m)%Z
  end.
Proof.
  unfold find_latest_file.
  destruct (glob fnmatch directory pattern) as [|x r] eqn:G; [reflexivity|].
  simpl. destruct (max_fold_spec snd r x) as (H1 & H2 & H3).
  set (b := fold_left _ r x) in *.
  exists (snd b). split; [destruct b; exact H1|].
  intros e [<- | He]; [exact H2 | auto].
Qed.

(** C9: when nothing matches, the utils.py version returns the string
    ["None"] (what [str(None)] gives), a path-like value, where its sibling
    in analyzer.py returns no path. *)
Theorem find_latest_file_utils_none fnmatch pattern :
  find_latest_file_utils fnmatch [] pattern = "None" /\
  find_latest_file fnmatch [] pattern = None.
Proof. split; reflexivity. Qed.

(** * Further properties of the code *)

(** ** The loop state of [_process_lines] *)

Lemma prefix_of_cases line :
  (prefix_of line = None /\ str_has "." line = false) \/
  (exists p q, prefix_of line = Some p /\ str_has "." p = false /\
               line = (p ++ String "." q)%string).
Proof.
  unfold prefix_of.
  destruct (py_split1_cases "." line) as [[H1 H2] | (p & q & Hp & Hl & H3)].
  - left. rewrite H2. split; [reflexivity | exact H1].
  - right. rewrite H3. exists p, q. repeat split; assumption.
Qed.

(** What one iteration does to the prefix mapping, the prefix set and the
    item values. *)
Lemma process_line_shape a line :
  exists a', process_line a line = Ok a' /\
    match prefix_of line with
    | None => a' = a
    | Some p =>
        a'.(prefix_counts) = dd_incr p a.(prefix_counts) /\
        a'.(unique_prefixes) = set_add p a.(unique_prefixes) /\
        (a'.(item_values) = a.(item_values) \/
         (p = "item" /\ exists v, a'.(item_values) = a.(item_values) ++ [v]))
    end.
Proof.
  destruct (prefix_of_cases line) as [[Hn Hd] | (p & q & Hs & Hp & ->)].
  - exists a. rewrite Hn. split; [apply process_line_nodot; exact Hd | reflexivity].
  - rewrite Hs.
    destruct (py_split1_cases "=" q) as [[Hq _] | (k & w & Hk & -> & _)].
    + rewrite process_line_dot_noeq by assumption.
      eexists. split; [reflexivity|]. cbn [prefix_counts unique_prefixes item_values].
      split; [reflexivity|]. split; [reflexivity|]. left; reflexivity.
    + rewrite process_line_dot_eq by assumption.
      eexists. split; [reflexivity|]. cbn [prefix_counts unique_prefixes item_values].
      split; [reflexivity|]. split; [reflexivity|].
      destruct (py_startswith "item." _) eqn:Es; [|left; reflexivity].
      right. split; [|eexists; reflexivity].
      apply py_startswith_inv in Es as [t Et]. rewrite item_dot in Et.
      apply split_first_unique in Et as [-> _]; [reflexivity | exact Hp | reflexivity].
Qed.

Lemma dd_incr_keys k d :
  map fst (dd_incr k d) =
  if existsb (String.eqb k) (map fst d) then map fst d else map fst d ++ [k].
Proof.
  induction d as [|[k' n] d IH]; simpl; [reflexivity|].
  destruct (String.eqb k k') eqn:E; simpl; [reflexivity|].
  rewrite IH. destruct (existsb _ _); reflexivity.
Qed.

Lemma set_add_nodup x s : NoDup s -> NoDup (set_add x s).
Proof.
  intros H. unfold set_add. destruct (existsb (String.eqb x) s) eqn:E; [exact H|].
  apply Permutation_NoDup with (x :: s).
  - apply Permutation_cons_append.
  - constructor; [|exact H]. intros Hx.
    assert (existsb (String.eqb x) s = true)
      by (apply existsb_exists; exists x; split; [exact Hx | apply String.eqb_refl]).
    congruence.
Qed.

Lemma count_get_dd_incr k p d :
  count_get k (dd_incr p d) =
  if String.eqb k p then S (count_get k d) else count_get k d.
Proof.
  induction d as [|[k' n] d IH]; simpl.
  - destruct (String.eqb k p); reflexivity.
  - destruct (String.eqb p k') eqn:Epk; simpl.
    + apply String.eqb_eq in Epk. subst k'.
      destruct (String.eqb k p); reflexivity.
    + destruct (String.eqb k k') eqn:Ekk; [|exact IH].
      apply String.eqb_eq in Ekk. subst k'.
      rewrite String.eqb_sym, Epk. reflexivity.
Qed.

(** Invariant of the loop: the prefix set lists the keys of the mapping, in
    the same order, and each key counts the lines read so far with that
    prefix. *)
Lemma process_loop_prefixes a lines :
  a.(unique_prefixes) = map fst a.(prefix_counts) ->
  NoDup (map fst a.(prefix_counts)) ->
  exists a', process_loop a lines = Ok a' /\
    a'.(unique_prefixes) = map fst a'.(prefix_counts) /\
    NoDup (map fst a'.(prefix_counts)) /\
    (forall k, count_get k a'.(prefix_counts) =
               count_get k a.(prefix_counts) + lines_with_prefix k lines) /\
    List.length a'.(item_values) <=
      List.length a.(item_values) + lines_with_prefix "item" lines /\
    (exists added, a'.(item_values) = a.(item_values) ++ added).
Proof.
  revert a. induction lines as [|line lines IH]; intros a Hu Hn; simpl.
  - exists a. split; [reflexivity|]. split; [assumption|]. split; [assumption|].
    unfold lines_with_prefix; simpl.
    split; [intros; lia|]. split; [lia|].
    exists []. rewrite app_nil_r. reflexivity.
  - destruct (process_line_shape a line) as (a1 & E & Hs). rewrite E. simpl.
    assert (Hinv : a1.(unique_prefixes) = map fst a1.(prefix_counts) /\
                   NoDup (map fst a1.(prefix_counts))).
    { destruct (prefix_of line) as [p|]; [|subst a1; split; assumption].
      destruct Hs as (Hpc & Hup & _). rewrite Hpc, Hup, Hu, dd_incr_keys.
      unfold set_add. split; [destruct (existsb _ _); reflexivity|].
      rewrite <- dd_incr_keys. rewrite dd_incr_keys.
      fold (set_add p (map fst (prefix_counts a))). apply set_add_nodup, Hn. }
    destruct Hinv as [Hu1 Hn1].
    destruct (IH a1 Hu1 Hn1) as (a2 & E2 & Hu2 & Hn2 & Hc2 & Hi2 & Ha2).
    exists a2. split; [exact E2|]. split; [exact Hu2|]. split; [exact Hn2|].
    unfold lines_with_prefix in *. simpl.
    destruct (prefix_of line) as [p|] eqn:Ep.
    + destruct Hs as (Hpc & _ & Hiv). split; [|split].
      * intros k. rewrite Hc2, Hpc, count_get_dd_incr, (String.eqb_sym p k).
        destruct (String.eqb k p); simpl; lia.
      * destruct Hiv as [Hiv | (-> & v & Hiv)]; rewrite Hiv in Hi2.
        -- destruct (String.eqb p "item"); simpl; lia.
        -- rewrite length_app in Hi2. simpl in *. lia.
      * destruct Ha2 as [added Ha2].
        destruct Hiv as [Hiv | (_ & v & Hiv)]; rewrite Hiv in Ha2.
        -- exists added. exact Ha2.
        -- exists (v :: added). rewrite Ha2, <- app_assoc. reflexivity.
    + subst a1. split; [exact Hc2|]. split; [exact Hi2 | exact Ha2].
Qed.

(** ** The sort of the prefix mapping *)

Definition count_desc (x y : string * nat) : Prop := snd y <= snd x.

Lemma count_get_absent k d :
  ~ In k (map fst d) -> count_get k d = 0.
Proof.
  induction d as [|[k' n] d IH]; simpl; intros H; [reflexivity|].
  destruct (String.eqb k k') eqn:E.
  - apply String.eqb_eq in E. subst k'. tauto.
  - apply IH. tauto.
Qed.

Lemma count_get_sum k d :
  NoDup (map fst d) ->
  count_get k d = list_sum (map snd (filter (fun kv => String.eqb k (fst kv)) d)).
Proof.
  induction d as [|[k' n] d IH]; simpl; intros H; [reflexivity|].
  inversion H as [|? ? Hk Hd]; subst.
  destruct (String.eqb k k') eqn:E; simpl.
  - apply String.eqb_eq in E. subst k'.
    rewrite <- IH, count_get_absent by assumption. lia.
  - apply IH, Hd.
Qed.

Lemma perm_filter {A} (f : A -> bool) l l' :
  Permutation l l' -> Permutation (filter f l) (filter f l').
Proof.
  induction 1 as [| x l l' _ IH | x y l | l l' l'' _ IH1 _ IH2]; simpl.
  - constructor.
  - destruct (f x); [constructor|]; exact IH.
  - destruct (f x), (f y); try constructor; reflexivity.
  - etransitivity; eassumption.
Qed.

Lemma filter_none {A} (f : A -> bool) l :
  (forall z, In z l -> f z = false) -> filter f l = [].
Proof.
  induction l as [|x l IH]; simpl; intros H; [reflexivity|].
  rewrite (H x (or_introl eq_refl)). apply IH. auto.
Qed.

Lemma count_get_perm k d d' :
  NoDup (map fst d) -> Permutation d d' -> count_get k d = count_get k d'.
Proof.
  intros Hn Hp.
  assert (Hn' : NoDup (map fst d'))
    by exact (Permutation_NoDup (Permutation_map fst Hp) Hn).
  rewrite !count_get_sum by assumption.
  apply Permutation_list_sum, Permutation_map, perm_filter, Hp.
Qed.

Lemma insert_desc_sorted x l :
  Sorted count_desc l -> Sorted count_desc (insert_desc x l).
Proof.
  induction 1 as [|y l Hl IH Hhd]; simpl.
  - repeat constructor.
  - destruct (snd y <? snd x) eqn:E.
    + apply Nat.ltb_lt in E. constructor; [constructor; assumption|].
      constructor. unfold count_desc. lia.
    + apply Nat.ltb_ge in E. constructor; [exact IH|].
      destruct l as [|z l]; simpl.
      * constructor. unfold count_desc. lia.
      * inversion Hhd as [|? ? Hyz]; subst.
        destruct (snd z <? snd x); constructor; unfold count_desc in *; lia.
Qed.

Lemma sort_desc_sorted l : Sorted count_desc (sort_desc l).
Proof.
  unfold sort_desc.
  assert (H : forall s, Sorted count_desc s ->
              Sorted count_desc (fold_left (fun s x => insert_desc x s) l s)).
  { induction l as [|x l IH]; intros s Hs; simpl; [exact Hs|].
    apply IH, insert_desc_sorted, Hs. }
  apply H. constructor.
Qed.

Definition with_count (n : nat) (kv : string * nat) : bool := Nat.eqb (snd kv) n.

Lemma insert_desc_filter n x s :
  Sorted count_desc s ->
  filter (with_count n) (insert_desc x s) =
  filter (with_count n) s ++ (if with_count n x then [x] else []).
Proof.
  intros Hs. apply Sorted_StronglySorted in Hs.
  2: { intros a b c Hab Hbc. unfold count_desc in *. lia. }
  induction Hs as [|y s Hs IH Hall]; simpl; [destruct (with_count n x); reflexivity|].
  destruct (snd y <? snd x) eqn:E.
  - apply Nat.ltb_lt in E. simpl.
    destruct (with_count n x) eqn:Ex.
    + unfold with_count in Ex. apply Nat.eqb_eq in Ex.
      assert (Hz : filter (with_count n) (y :: s) = []).
      { apply filter_none. intros z [<- | Hz].
        - unfold with_count. apply Nat.eqb_neq. lia.
        - rewrite Forall_forall in Hall. specialize (Hall z Hz).
          unfold count_desc, with_count in *. apply Nat.eqb_neq. lia. }
      simpl in Hz. rewrite Hz. reflexivity.
    + simpl. rewrite app_nil_r. reflexivity.
  - simpl. rewrite IH. destruct (with_count n y); reflexivity.
Qed.

Lemma sort_desc_stable n l :
  filter (with_count n) (sort_desc l) = filter (with_count n) l.
Proof.
  unfold sort_desc.
  assert (H : forall s, Sorted count_desc s ->
     filter (with_count n) (fold_left (fun s x => insert_desc x s) l s) =
     filter (with_count n) s ++ filter (with_count n) l).
  { induction l as [|x l IH]; intros s Hs; simpl; [rewrite app_nil_r; reflexivity|].
    rewrite IH by (apply insert_desc_sorted, Hs).
    rewrite insert_desc_filter by exact Hs. rewrite <- app_assoc.
    destruct (with_count n x); reflexivity. }
  rewrite H by constructor. reflexivity.
Qed.

Lemma str_length_app (a b : string) :
  String.length (a ++ b)%string = String.length a + String.length b.
Proof. induction a as [|c a IH]; simpl; [reflexivity | rewrite IH; reflexivity]. Qed.

Lemma concat_empty_cons (x : string) l :
  String.concat "" (x :: l) = (x ++ String.concat "" l)%string.
Proof.
  destruct l as [|y l]; simpl; [symmetry; apply str_app_nil_r | reflexivity].
Qed.

Lemma spaces_length m : String.length (String.concat "" (repeat " " m)) = m.
Proof.
  induction m as [|m IH]; [reflexivity|].
  cbn [repeat]. rewrite concat_empty_cons, str_length_app, IH. reflexivity.
Qed.

Lemma pad_length w s :
  String.length (py_pad_left_align w s) = Nat.max w (String.length s).
Proof.
  unfold py_pad_left_align. rewrite str_length_app, spaces_length. lia.
Qed.

Lemma list_max_in l : l <> [] -> In (list_max l) l.
Proof.
  induction l as [|x l IH]; intros H; [congruence|].
  simpl. destruct l as [|y l].
  - left. simpl. lia.
  - destruct (Nat.max_spec x (list_max (y :: l))) as [[_ ->] | [_ ->]].
    + right. apply IH. discriminate.
    + left. reflexivity.
Qed.

Lemma list_max_ge x l : In x l -> x <= list_max l.
Proof.
  intros Hx. assert (H : list_max l <= list_max l) by lia.
  rewrite list_max_le, Forall_forall in H. auto.
Qed.

Lemma dd_incr_in k p d : In k (map fst (dd_incr p d)) <-> In k (map fst d) \/ k = p.
Proof.
  rewrite dd_incr_keys. destruct (existsb (String.eqb p) (map fst d)) eqn:E.
  - apply existsb_exists in E as (y & Hy & Ey). apply String.eqb_eq in Ey. subst y.
    split; [tauto|]. intros [H | ->]; assumption.
  - rewrite in_app_iff. simpl. intuition.
Qed.

(** The keys of the mapping after the loop: the keys before it and the
    prefixes of the lines it read. *)
Lemma process_loop_keys a lines :
  exists a', process_loop a lines = Ok a' /\
    forall k, In k (map fst a'.(prefix_counts)) <->
              In k (map fst a.(prefix_counts)) \/
              exists l, In l lines /\ prefix_of l = Some k.
Proof.
  revert a. induction lines as [|line lines IH]; intros a; simpl.
  - exists a. split; [reflexivity|]. intros k. split; [tauto|].
    intros [H | (l & [] & _)]. exact H.
  - destruct (process_line_shape a line) as (a1 & E & Hs). rewrite E. simpl.
    destruct (IH a1) as (a2 & E2 & Hk2). exists a2. split; [exact E2|].
    intros k. rewrite Hk2.
    destruct (prefix_of line) as [p|] eqn:Ep.
    + destruct Hs as (Hpc & _). rewrite Hpc, dd_incr_in. split.
      * intros [[H | ->] | (l & Hl & Hlk)].
        -- left. exact H.
        -- right. exists line. split; [left; reflexivity | exact Ep].
        -- right. exists l. split; [right; exact Hl | exact Hlk].
      * intros [H | (l & [<- | Hl] & Hlk)].
        -- left. left. exact H.
        -- left. right. congruence.
        -- right. exists l. split; assumption.
    + subst a1. split.
      * intros [H | (l & Hl & Hlk)].
        -- left. exact H.
        -- right. exists l. split; [right; exact Hl | exact Hlk].
      * intros [H | (l & [<- | Hl] & Hlk)].
        -- left. exact H.
        -- exfalso. congruence.
        -- right. exists l. split; assumption.
Qed.

Lemma process_lines_prefix_counts (lines : list string) :
  match process_lines lines with
  | Ok r =>
      (forall k, count_get k r.(r_prefix_counts) = lines_with_prefix k lines) /\
      NoDup (map fst r.(r_prefix_counts)) /\
      r.(r_unique_prefixes) = List.length r.(r_prefix_counts)
  | Raise _ => False
  end.
Proof.
  unfold process_lines.
  destruct (process_loop_prefixes acc0 lines eq_refl (NoDup_nil _))
    as (a & E & Hu & Hn & Hc & _).
  rewrite E. cbn [exc_bind r_prefix_counts r_unique_prefixes].
  pose proof (sort_desc_perm (prefix_counts a)) as Hp.
  split; [|split].
  - intros k. rewrite <- (count_get_perm k _ _ Hn (Permutation_sym Hp)), Hc.
    reflexivity.
  - exact (Permutation_NoDup (Permutation_map fst (Permutation_sym Hp)) Hn).
  - rewrite Hu, length_map. symmetry. apply Permutation_length, Hp.
Qed.

(** The prefix mapping returned by [_process_lines] has one entry per
    distinct prefix: its keys are exactly the prefixes of the lines (the
    text before a first ['.']), without repetition, each key's count is the
    number of lines with that prefix, and [unique_prefixes] is its number of
    entries, hence the number of distinct prefixes. *)
Theorem prefix_counts_per_prefix (lines : list string) :
  match process_lines lines with
  | Ok r =>
      (forall k, In k (map fst r.(r_prefix_counts)) <->
                 exists l, In l lines /\ prefix_of l = Some k) /\
      (forall k, count_get k r.(r_prefix_counts) = lines_with_prefix k lines) /\
      NoDup (map fst r.(r_prefix_counts)) /\
      r.(r_unique_prefixes) = List.length r.(r_prefix_counts)
  | Raise _ => False
  end.
Proof.
  pose proof (process_lines_prefix_counts lines) as H.
  unfold process_lines in *.
  destruct (process_loop_keys acc0 lines) as (a & E & Hk).
  rewrite E in *. cbn [exc_bind r_prefix_counts] in *.
  split; [|exact H].
  assert (Hpm : Permutation (map fst (sort_desc (prefix_counts a)))
                            (map fst (prefix_counts a)))
    by (apply Permutation_map, sort_desc_perm).
  intros k. split; intros Hin.
  - apply (Permutation_in _ Hpm), Hk in Hin as [[] | Hex]. exact Hex.
  - apply (Permutation_in _ (Permutation_sym Hpm)), Hk. right. exact Hin.
Qed.

(** [prefix_counts] is the loop's mapping sorted by descending count; entries
    with equal counts keep the order in which their prefixes first
    appeared. *)
Theorem prefix_counts_sorted_stable (lines : list string) :
  match process_lines lines with
  | Ok r =>
      exists a, process_loop acc0 lines = Ok a /\
        Permutation r.(r_prefix_counts) a.(prefix_counts) /\
        Sorted count_desc r.(r_prefix_counts) /\
        forall n, filter (with_count n) r.(r_prefix_counts) =
                  filter (with_count n) a.(prefix_counts)
  | Raise _ => False
  end.
Proof.
  unfold process_lines.
  destruct (process_loop_counts acc0 lines) as (a & E & _).
  rewrite E. cbn [exc_bind r_prefix_counts]. exists a.
  split; [reflexivity|]. split; [apply sort_desc_perm|].
  split; [apply sort_desc_sorted | intros n; apply sort_desc_stable].
Qed.

(** [max_prefix_len] is the length of the longest prefix (0 without
    prefixes), so every prefix row of the log pads its prefix to exactly
    that width. *)
Theorem max_prefix_len_aligned (lines : list string) :
  match process_lines lines with
  | Ok r =>
      (forall kv, In kv r.(r_prefix_counts) ->
         String.length (fst kv) <= r.(r_max_prefix_len) /\
         String.length (py_pad_left_align r.(r_max_prefix_len) (fst kv)) =
           r.(r_max_prefix_len)) /\
      (r.(r_prefix_counts) = [] -> r.(r_max_prefix_len) = 0) /\
      (r.(r_prefix_counts) <> [] ->
         exists kv, In kv r.(r_prefix_counts) /\
                    String.length (fst kv) = r.(r_max_prefix_len))
  | Raise _ => False
  end.
Proof.
  unfold process_lines.
  destruct (process_loop_counts acc0 lines) as (a & E & _).
  rewrite E. cbn [exc_bind r_prefix_counts r_max_prefix_len].
  set (pc := sort_desc (prefix_counts a)).
  assert (Hm : list_max (map (fun kv => String.length (fst kv)) pc) =
               match pc with
               | [] => 0
               | _ => list_max (map (fun kv => String.length (fst kv)) pc)
               end) by (destruct pc; reflexivity).
  rewrite <- Hm. split; [|split].
  - intros kv Hkv.
    assert (Hle : String.length (fst kv) <=
                  list_max (map (fun kv => String.length (fst kv)) pc))
      by (apply list_max_ge, in_map_iff; exists kv; split; [reflexivity | exact Hkv]).
    split; [exact Hle|]. rewrite pad_length. lia.
  - intros ->. reflexivity.
  - intros Hne.
    assert (Hin : In (list_max (map (fun kv => String.length (fst kv)) pc))
                     (map (fun kv => String.length (fst kv)) pc)).
    { apply list_max_in. destruct pc; [congruence | discriminate]. }
    apply in_map_iff in Hin as (kv & Hkv & Hin).
    exists kv. split; assumption.
Qed.

(** [item_values] has at most one entry per line with prefix ["item"]. *)
Theorem item_values_bounded (lines : list string) :
  match process_lines lines with
  | Ok r => List.length r.(r_item_values) <= count_get "item" r.(r_prefix_counts)
  | Raise _ => False
  end.
Proof.
  pose proof (process_lines_prefix_counts lines) as Hpc.
  unfold process_lines in *.
  destruct (process_loop_prefixes acc0 lines eq_refl (NoDup_nil _))
    as (a & E & _ & _ & _ & Hi & _).
  rewrite E in *. cbn [exc_bind r_prefix_counts r_item_values] in *.
  destruct Hpc as [Hc _]. rewrite Hc. simpl in Hi. exact Hi.
Qed.

(** ** The diff *)

(** [a - b] is empty when every line of [a] is in [b]. *)
Lemma set_diff_nil (a b : list string) :
  (forall x, In x a -> In x b) -> set_diff a b = [].
Proof.
  intros Hab. unfold set_diff. apply filter_none. intros z Hz.
  apply negb_false_iff, existsb_exists. exists z.
  split; [apply Hab, Hz | apply String.eqb_refl].
Qed.

(** ** [read_file] *)

Lemma str_has_lstrip c x : str_has c (py_lstrip x) = true -> str_has c x = true.
Proof.
  induction x as [|d x IH]; simpl; [discriminate|].
  destruct (py_isspace d); simpl; [intros H; rewrite IH by exact H; apply orb_true_r | auto].
Qed.

Lemma str_has_rstrip c x : str_has c (py_rstrip x) = true -> str_has c x = true.
Proof.
  induction x as [|d x IH]; simpl; [discriminate|].
  destruct (py_isspace d && String.eqb (py_rstrip x) ""); simpl; [discriminate|].
  intros H. apply orb_true_iff in H as [H | H]; [rewrite H; reflexivity|].
  rewrite IH by exact H. apply orb_true_r.
Qed.

Lemma str_has_strip c x : str_has c x = false -> str_has c (py_strip x) = false.
Proof.
  intros H. unfold py_strip.
  destruct (str_has c (py_rstrip (py_lstrip x))) eqn:E; [|reflexivity].
  apply str_has_rstrip, str_has_lstrip in E. congruence.
Qed.

Lemma py_rstrip_idem x : py_rstrip (py_rstrip x) = py_rstrip x.
Proof.
  induction x as [|c x IH]; simpl; [reflexivity|].
  destruct (py_isspace c && String.eqb (py_rstrip x) "") eqn:E; [reflexivity|].
  simpl. rewrite IH, E. reflexivity.
Qed.

Lemma py_lstrip_head x :
  py_lstrip x = "" \/ exists c r, py_lstrip x = String c r /\ py_isspace c = false.
Proof.
  induction x as [|c x IH]; simpl; [left; reflexivity|].
  destruct (py_isspace c) eqn:E; [exact IH|]. right. exists c, x. split; [reflexivity | exact E].
Qed.

Lemma py_strip_idem x : py_strip (py_strip x) = py_strip x.
Proof.
  unfold py_strip. destruct (py_lstrip_head x) as [-> | (c & r & -> & Hc)]; [reflexivity|].
  assert (Hr : forall t, py_rstrip (String c t) = String c (py_rstrip t))
    by (intros t; simpl; rewrite Hc; reflexivity).
  assert (Hl : forall t, py_lstrip (String c t) = String c t)
    by (intros t; simpl; rewrite Hc; reflexivity).
  rewrite Hr, Hl, Hr, py_rstrip_idem. reflexivity.
Qed.

Lemma decode_no_cr s : str_has cr (decode_newlines s) = false.
Proof.
  induction s as [s IH] using (well_founded_induction
    (Wf_nat.well_founded_ltof _ String.length)).
  destruct s as [|c r']; [reflexivity|]. cbn [decode_newlines].
  destruct (Ascii.eqb c cr) eqn:Ec.
  - destruct r' as [|d r'']; [reflexivity|].
    destruct (Ascii.eqb d nl); cbn [str_has];
      rewrite IH by (unfold Wf_nat.ltof; simpl; lia); reflexivity.
  - cbn [str_has]. rewrite Ec, IH by (unfold Wf_nat.ltof; simpl; lia). reflexivity.
Qed.

Lemma readlines_aux_shape cur s :
  str_has nl cur = false -> str_has cr cur = false -> str_has cr s = false ->
  forall y, In y (readlines_aux cur s) ->
    exists t, (y = t \/ y = (t ++ String nl "")%string) /\
              str_has nl t = false /\ str_has cr t = false.
Proof.
  revert cur. induction s as [|c r IH]; intros cur Hn Hc Hs y Hy.
  - cbn [readlines_aux] in Hy. destruct (String.eqb cur "") ; [destruct Hy|].
    destruct Hy as [<- | []]. exists cur. split; [left; reflexivity | split; assumption].
  - cbn [readlines_aux str_has] in Hy, Hs. apply orb_false_iff in Hs as [Hcc Hr].
    destruct (Ascii.eqb c nl) eqn:Ecn.
    + destruct Hy as [<- | Hy].
      * exists cur. split; [right; reflexivity | split; assumption].
      * exact (IH "" eq_refl eq_refl Hr y Hy).
    + apply (IH (cur ++ String c "")%string); try assumption.
      * rewrite str_has_app. cbn [str_has]. rewrite Hn, Ecn. reflexivity.
      * rewrite str_has_app. cbn [str_has]. rewrite Hc, Hcc. reflexivity.
Qed.

Lemma py_set_of_nodup_aux l s : NoDup s -> NoDup (fold_left (fun s x => set_add x s) l s).
Proof.
  revert s. induction l as [|x l IH]; intros s Hs; simpl; [exact Hs|].
  apply IH, set_add_nodup, Hs.
Qed.

Lemma py_set_of_nodup l : NoDup (py_set_of l).
Proof. apply py_set_of_nodup_aux. constructor. Qed.

Lemma py_set_of_id l : NoDup l -> py_set_of l = l.
Proof.
  unfold py_set_of.
  assert (H : forall s, NoDup (s ++ l) ->
              fold_left (fun s x => set_add x s) l s = s ++ l).
  { induction l as [|x l IH]; intros s Hs; simpl; [rewrite app_nil_r; reflexivity|].
    assert (Hx : existsb (String.eqb x) s = false).
    { destruct (existsb (String.eqb x) s) eqn:E; [|reflexivity].
      apply existsb_exists in E as (y & Hy & Ey). apply String.eqb_eq in Ey. subst y.
      apply NoDup_remove_2 in Hs. exfalso. apply Hs, in_or_app. left. exact Hy. }
    unfold set_add. rewrite Hx. rewrite IH.
    - rewrite <- app_assoc. reflexivity.
    - rewrite <- app_assoc. exact Hs. }
  intros Hl. apply (H []). exact Hl.
Qed.

(** The set [read_file] returns has no duplicates, and each of its lines is
    stripped and free of line terminators ("\n", "\r"). *)
Theorem read_file_lines (f : list (string * entry)) (p : string) :
  NoDup (snd (read_file f p)) /\
  Forall (fun y => py_strip y = y /\ str_has nl y = false /\ str_has cr y = false)
    (snd (read_file f p)).
Proof.
  unfold read_file. destruct (fs_lookup p f) as [[c | e] |]; simpl;
    try (split; constructor).
  split; [apply py_set_of_nodup|].
  apply Forall_forall. intros y Hy.
  apply py_set_of_in, in_map_iff in Hy as (z & <- & Hz).
  apply readlines_aux_shape in Hz as (t & Ht & Hn & Hc); try reflexivity;
    [|apply decode_no_cr].
  assert (Hst : py_strip z = py_strip t)
    by (destruct Ht as [-> | ->]; [reflexivity | apply py_strip_nl]).
  rewrite Hst. split; [apply py_strip_idem|].
  split; apply str_has_strip; assumption.
Qed.

Lemma write_read_exact (ls p : string) (f : list (string * entry)) (lines : list string) :
  (ls = String nl "" \/ ls = String cr (String nl "")) ->
  NoDup lines ->
  Forall (fun x => py_strip x = x /\ str_has nl x = false /\ str_has cr x = false) lines ->
  snd (read_file (write_file ls p lines f) p) = lines.
Proof.
  intros Hls Hnd Hl.
  unfold read_file, write_file. rewrite fs_lookup_write. simpl.
  rewrite decode_encode_newlines.
  2: exact Hls.
  2: { apply str_has_write_lines; [discriminate|].
       eapply Forall_impl; [|exact Hl]. simpl. tauto. }
  rewrite readlines_write_lines.
  2: { eapply Forall_impl; [|exact Hl]. simpl. tauto. }
  rewrite map_map, (map_ext_in _ (fun x => x)).
  - rewrite map_id. apply py_set_of_id, Hnd.
  - intros y Hy. rewrite py_strip_nl.
    rewrite Forall_forall in Hl. apply (Hl y Hy).
Qed.

(** Writing the set read from any file one line per entry and reading it
    back gives the same set: the same members, each once. *)
Theorem read_write_read (ls : string) (f f' : list (string * entry)) (p q : string) :
  (ls = String nl "" \/ ls = String cr (String nl "")) ->
  NoDup (snd (read_file (write_file ls p (snd (read_file f q)) f') p)) /\
  forall x, In x (snd (read_file (write_file ls p (snd (read_file f q)) f') p)) <->
            In x (snd (read_file f q)).
Proof.
  intros Hls. destruct (read_file_lines f q) as [Hnd Hl].
  rewrite write_read_exact by assumption.
  split; [exact Hnd | tauto].
Qed.

Lemma read_write_read_witness :
  (String cr (String nl "") = String nl "" \/
   String cr (String nl "") = String cr (String nl "")) /\
  NoDup (snd (read_file (write_file (String cr (String nl "")) "out.txt"
                           (snd (read_file world_ex.(fs) "ru.lang")) []) "out.txt")) /\
  forall x, In x (snd (read_file (write_file (String cr (String nl "")) "out.txt"
                                    (snd (read_file world_ex.(fs) "ru.lang")) [])
                          "out.txt")) <->
            In x (snd (read_file world_ex.(fs) "ru.lang")).
Proof.
  assert (Hls : String cr (String nl "") = String nl "" \/
                String cr (String nl "") = String cr (String nl ""))
    by (right; reflexivity).
  split; [exact Hls|].
  exact (read_write_read _ world_ex.(fs) [] "out.txt" "ru.lang" Hls).
Defined.

(** ** What a run writes *)

Lemma analyze_file_effects (c : config) (old : option string) (nf : string) (w : world) :
  let old_lines := match old with
                   | Some p => snd (read_file w.(fs) p)
                   | None => []
                   end in
  let new_lines := snd (read_file w.(fs) nf) in
  exists r w',
    process_lines (set_diff new_lines old_lines) = Ok r /\
    analyze_file c old nf w = Ok w' /\
    w'.(fs) = write_file c.(linesep) (dump_file_path c) new_lines
                (write_file c.(linesep) (log_file_path c)
                   (format_log_data c r new_lines nf old) w.(fs)) /\
    exists msgs, w'.(console) = w.(console) ++ msgs ++ ["Files written successfully!"].
Proof.
  intros old_lines new_lines. unfold analyze_file.
  assert (Ho : snd (match old with Some p => read_file w.(fs) p | None => ([], []) end)
               = old_lines) by (destruct old; reflexivity).
  destruct (match old with Some p => read_file w.(fs) p | None => ([], []) end)
    as [msg_old ol] eqn:Eo.
  simpl in Ho. subst ol.
  unfold new_lines. destruct (read_file w.(fs) nf) as [msg_new nl'] eqn:Hr.
  cbv beta iota zeta. simpl snd.
  unfold process_lines at 1.
  destruct (process_loop_counts acc0 (set_diff nl' old_lines)) as (a & E & _).
  eexists. eexists. split.
  - unfold process_lines. rewrite E. reflexivity.
  - unfold process_lines. rewrite E. cbn [exc_bind]. split; [reflexivity|].
    split; [reflexivity|]. exists (msg_old ++ msg_new). simpl.
    rewrite <- !app_assoc. reflexivity.
Qed.

(** A run that completes changes no file but its log [log_<ts>.txt] and
    its dump [ru_lang_<ts>.txt] (the input files and older snapshots are
    left as they were), and it only appends to the console. *)
Theorem analyze_file_touches_only_outputs (c : config) (old : option string)
    (nf : string) (w w' : world) :
  analyze_file c old nf w = Ok w' ->
  (forall q, q <> log_file_path c -> q <> dump_file_path c ->
     fs_lookup q w'.(fs) = fs_lookup q w.(fs)) /\
  exists msgs, w'.(console) = w.(console) ++ msgs.
Proof.
  intros Hrun.
  destruct (analyze_file_effects c old nf w) as (r & w'' & _ & E & Hfs & msgs & Hc).
  rewrite Hrun in E. injection E as <-. split.
  - intros q Hq1 Hq2. rewrite Hfs. unfold write_file.
    rewrite !fs_lookup_write_other by assumption. reflexivity.
  - exists (msgs ++ ["Files written successfully!"]). exact Hc.
Qed.

Lemma analyze_file_touches_only_outputs_witness :
  exists w', analyze_file cfg_ex (Some "dumps/ru_lang_old.txt") "ru.lang" world_ex = Ok w' /\
  (forall q, q <> log_file_path cfg_ex -> q <> dump_file_path cfg_ex ->
     fs_lookup q w'.(fs) = fs_lookup q world_ex.(fs)) /\
  exists msgs, w'.(console) = world_ex.(console) ++ msgs.
Proof.
  eexists. assert (Hrun : analyze_file cfg_ex (Some "dumps/ru_lang_old.txt") "ru.lang"
                           world_ex = Ok _) by (vm_compute; reflexivity).
  split; [exact Hrun|].
  exact (analyze_file_touches_only_outputs cfg_ex (Some "dumps/ru_lang_old.txt")
           "ru.lang" world_ex _ Hrun).
Defined.

(** The dump a run writes is read back by [read_file] (as the next run does
    with its comparison file) as exactly the set read from the new file. *)
Theorem dump_read_back (c : config) (old : option string) (nf : string) (w : world) :
  (c.(linesep) = String nl "" \/ c.(linesep) = String cr (String nl "")) ->
  match analyze_file c old nf w with
  | Ok w' => snd (read_file w'.(fs) (dump_file_path c)) = snd (read_file w.(fs) nf)
  | Raise _ => False
  end.
Proof.
  intros Hls.
  destruct (analyze_file_effects c old nf w) as (r & w' & _ & E & Hfs & _).
  rewrite E, Hfs. destruct (read_file_lines w.(fs) nf) as [Hnd Hl].
  apply write_read_exact; assumption.
Qed.

Lemma dump_read_back_witness :
  (cfg_ex.(linesep) = String nl "" \/ cfg_ex.(linesep) = String cr (String nl "")) /\
  match analyze_file cfg_ex (Some "dumps/ru_lang_old.txt") "ru.lang" world_ex with
  | Ok w' => snd (read_file w'.(fs) (dump_file_path cfg_ex)) =
             snd (read_file world_ex.(fs) "ru.lang")
  | Raise _ => False
  end.
Proof.
  assert (Hls : cfg_ex.(linesep) = String nl "" \/
                cfg_ex.(linesep) = String cr (String nl "")) by (left; reflexivity).
  split; [exact Hls|].
  exact (dump_read_back cfg_ex (Some "dumps/ru_lang_old.txt") "ru.lang" world_ex Hls).
Defined.

Lemma read_file_write_other ls p q lines f :
  p <> q -> read_file (write_file ls q lines f) p = read_file f p.
Proof.
  intros H. unfold read_file, write_file. rewrite fs_lookup_write_other by exact H.
  reflexivity.
Qed.

(** Two runs in a row on an unchanged new file, the second comparing against
    the dump of the first: the second run finds no new lines, and its log
    is the header with every count at zero and no prefix row, followed by
    the current set. *)
Theorem rerun_finds_nothing (c1 c2 : config) (old : option string) (nf : string)
    (w : world) :
  (c1.(linesep) = String nl "" \/ c1.(linesep) = String cr (String nl "")) ->
  nf <> log_file_path c1 -> nf <> dump_file_path c1 ->
  log_file_path c2 <> dump_file_path c2 ->
  match analyze_file c1 old nf w with
  | Ok w1 =>
      match analyze_file c2 (Some (dump_file_path c1)) nf w1 with
      | Ok w2 =>
          fs_lookup (log_file_path c2) w2.(fs) =
            Some (Readable (encode_newlines c2.(linesep)
                    (write_lines_text
                       (format_log_data c2 empty_analysis (snd (read_file w.(fs) nf))
                          nf (Some (dump_file_path c1))))))
      | Raise _ => False
      end
  | Raise _ => False
  end.
Proof.
  intros Hls Hn1 Hn2 Hp2.
  destruct (analyze_file_effects c1 old nf w) as (r1 & w1 & _ & E1 & Hfs1 & _).
  rewrite E1.
  destruct (analyze_file_effects c2 (Some (dump_file_path c1)) nf w1)
    as (r2 & w2 & Hr2 & E2 & Hfs2 & _).
  rewrite E2, Hfs2.
  assert (Hnew : snd (read_file w1.(fs) nf) = snd (read_file w.(fs) nf)).
  { rewrite Hfs1, !read_file_write_other by assumption. reflexivity. }
  assert (Hdump : snd (read_file w1.(fs) (dump_file_path c1)) =
                  snd (read_file w.(fs) nf)).
  { rewrite Hfs1. destruct (read_file_lines w.(fs) nf) as [Hnd Hl].
    apply write_read_exact; assumption. }
  rewrite Hnew, Hdump in *.
  rewrite set_diff_nil in Hr2 by (intros x Hx; exact Hx).
  cbv in Hr2. injection Hr2 as <-.
  unfold write_file. rewrite fs_lookup_write_other by exact Hp2.
  rewrite fs_lookup_write. reflexivity.
Qed.

Lemma rerun_finds_nothing_witness :
  (cfg_ex.(linesep) = String nl "" \/ cfg_ex.(linesep) = String cr (String nl "")) /\
  "ru.lang" <> log_file_path cfg_ex /\ "ru.lang" <> dump_file_path cfg_ex /\
  log_file_path cfg_ex2 <> dump_file_path cfg_ex2 /\
  match analyze_file cfg_ex (Some "dumps/ru_lang_old.txt") "ru.lang" world_ex with
  | Ok w1 =>
      match analyze_file cfg_ex2 (Some (dump_file_path cfg_ex)) "ru.lang" w1 with
      | Ok w2 =>
          fs_lookup (log_file_path cfg_ex2) w2.(fs) =
            Some (Readable (encode_newlines cfg_ex2.(linesep)
                    (write_lines_text
                       (format_log_data cfg_ex2 empty_analysis
                          (snd (read_file world_ex.(fs) "ru.lang"))
                          "ru.lang" (Some (dump_file_path cfg_ex))))))
      | Raise _ => False
      end
  | Raise _ => False
  end.
Proof.
  assert (Hls : cfg_ex.(linesep) = String nl "" \/
                cfg_ex.(linesep) = String cr (String nl "")) by (left; reflexivity).
  assert (H1 : "ru.lang" <> log_file_path cfg_ex) by (vm_compute; discriminate).
  assert (H2 : "ru.lang" <> dump_file_path cfg_ex) by (vm_compute; discriminate).
  assert (H3 : log_file_path cfg_ex2 <> dump_file_path cfg_ex2)
    by (vm_compute; discriminate).
  split; [exact Hls|]. split; [exact H1|]. split; [exact H2|]. split; [exact H3|].
  exact (rerun_finds_nothing cfg_ex cfg_ex2 (Some "dumps/ru_lang_old.txt") "ru.lang"
           world_ex Hls H1 H2 H3).
Defined.

Lemma process_lines_count lines r :
  process_lines lines = Ok r -> r.(r_new_lines_count) = List.length lines.
Proof.
  unfold process_lines. destruct (process_loop acc0 lines); simpl; [|discriminate].
  intros H. injection H as <-. reflexivity.
Qed.

Lemma format_log_data_split c r new_lines nf old :
  format_log_data c r new_lines nf old = format_log_data c r [] nf old ++ new_lines.
Proof.
  unfold format_log_data. rewrite app_nil_r. simpl. rewrite <- !app_assoc. reflexivity.
Qed.

(** The log of a run: ten header lines plus one row per prefix, whose
    fourth line reports the size of the diff, followed by every line of the
    current set (not only the diff). *)
Theorem log_file_layout (c : config) (old : option string) (nf : string) (w : world) :
  log_file_path c <> dump_file_path c ->
  let old_lines := match old with
                   | Some p => snd (read_file w.(fs) p)
                   | None => []
                   end in
  let new_lines := snd (read_file w.(fs) nf) in
  match analyze_file c old nf w with
  | Ok w' =>
      exists header,
        fs_lookup (log_file_path c) w'.(fs) =
          Some (Readable (encode_newlines c.(linesep)
                  (write_lines_text (header ++ new_lines)))) /\
        nth_error header 3 =
          Some ("Total number of new lines: " ++
                py_str_nat (List.length (set_diff new_lines old_lines)))%string /\
        exists r, process_lines (set_diff new_lines old_lines) = Ok r /\
                  List.length header = 10 + List.length r.(r_prefix_counts)
  | Raise _ => False
  end.
Proof.
  intros Hpaths old_lines new_lines.
  destruct (analyze_file_effects c old nf w) as (r & w' & Hp & E & Hfs & _).
  rewrite E, Hfs.
  exists (format_log_data c r [] nf old).
  assert (Hsplit : format_log_data c r new_lines nf old =
                   format_log_data c r [] nf old ++ new_lines)
    by apply format_log_data_split.
  assert (Hcount : r.(r_new_lines_count) = List.length (set_diff new_lines old_lines))
    by exact (process_lines_count _ _ Hp).
  split; [|split].
  - unfold write_file. rewrite fs_lookup_write_other by exact Hpaths.
    rewrite fs_lookup_write, <- Hsplit. reflexivity.
  - rewrite <- Hcount. reflexivity.
  - exists r. split; [exact Hp|].
    unfold format_log_data. rewrite !length_app, length_map. simpl. lia.
Qed.

Lemma log_file_layout_witness :
  log_file_path cfg_ex <> dump_file_path cfg_ex /\
  match analyze_file cfg_ex (Some "dumps/ru_lang_old.txt") "ru.lang" world_ex with
  | Ok w' =>
      exists header,
        fs_lookup (log_file_path cfg_ex) w'.(fs) =
          Some (Readable (encode_newlines cfg_ex.(linesep)
                  (write_lines_text (header ++ snd (read_file world_ex.(fs) "ru.lang"))))) /\
        nth_error header 3 =
          Some ("Total number of new lines: " ++
                py_str_nat (List.length
                  (set_diff (snd (read_file world_ex.(fs) "ru.lang"))
                            (snd (read_file world_ex.(fs) "dumps/ru_lang_old.txt")))))%string /\
        exists r, process_lines
                    (set_diff (snd (read_file world_ex.(fs) "ru.lang"))
                              (snd (read_file world_ex.(fs) "dumps/ru_lang_old.txt"))) = Ok r /\
                  List.length header = 10 + List.length r.(r_prefix_counts)
  | Raise _ => False
  end.
Proof.
  assert (H : log_file_path cfg_ex <> dump_file_path cfg_ex) by discriminate.
  split; [exact H|].
  exact (log_file_layout cfg_ex (Some "dumps/ru_lang_old.txt") "ru.lang" world_ex H).
Defined.

(** ** [find_latest_file] *)

Lemma max_fold_first {A} (k : A -> Z) (r : list A) (best : A) :
  let b := fold_left (fun best y => if (k best <? k y)%Z then y else best) r best in
  exists pre post, best :: r = pre ++ b :: post /\
    Forall (fun e => (k e < k b)%Z) pre /\ Forall (fun e => (k e <= k b)%Z) post.
Proof.
  revert best. induction r as [|y r IH]; intros best; simpl.
  - exists [], []. repeat constructor.
  - destruct (k best <? k y)%Z eqn:E.
    + apply Z.ltb_lt in E. destruct (IH y) as (pre & post & Hs & Hpre & Hpost).
      destruct (max_fold_spec k r y) as (_ & Hyb & _).
      exists (best :: pre), post. split; [rewrite Hs; reflexivity|].
      split; [constructor; [lia | exact Hpre] | exact Hpost].
    + apply Z.ltb_ge in E. destruct (IH best) as (pre & post & Hs & Hpre & Hpost).
      destruct (max_fold_spec k r best) as (_ & Hbb & _).
      destruct pre as [|z pre].
      * injection Hs as Hb Hr. exists [], (y :: post).
        split; [simpl; rewrite <- Hb, Hr; reflexivity|].
        split; [constructor|]. constructor; [rewrite <- Hb; lia | exact Hpost].
      * injection Hs as Hz Hr. subst z.
        inversion Hpre as [|? ? Hlt Hpre']; subst.
        exists (best :: y :: pre), post. split; [simpl; do 2 f_equal; exact Hr|].
        split; [repeat constructor; try lia; exact Hpre' | exact Hpost].
Qed.

(** analyzer.py's [find_latest_file] returns the first file, in the order
    the glob lists them, with the greatest [st_mtime]: every match listed
    before it is strictly older, every match after it is not newer. *)
Theorem find_latest_file_first_max fnmatch directory pattern :
  match find_latest_file fnmatch directory pattern with
  | None => glob fnmatch directory pattern = []
  | Some p =>
      exists m pre post,
        glob fnmatch directory pattern = pre ++ (p, m) :: post /\
        Forall (fun e => (snd e < m)%Z) pre /\ Forall (fun e => (snd e <= m)%Z) post
  end.
Proof.
  unfold find_latest_file.
  destruct (glob fnmatch directory pattern) as [|x r] eqn:G; [reflexivity|].
  simpl. destruct (max_fold_first snd r x) as (pre & post & Hs & Hpre & Hpost).
  set (b := fold_left _ r x) in *.
  exists (snd b), pre, post. destruct b as [p m]. simpl in *.
  split; [exact Hs|]. split; assumption.
Qed.
